(** * scripts/face_matcher.py: the face matching script, modelled and checked

    The script loads two images through the [face_recognition] library,
    takes the face encodings of each, validates how many faces were found,
    turns the library's face distance into a similarity score and prints
    the verdict as one JSON line.

    The library is external: it is an interface here ([FaceRecognition]),
    and every statement below quantifies over its behaviour, including the
    exceptions it may raise.  Python's own objects are modelled as far as
    the script touches them: dictionaries with ordered keys, builtin bool,
    float and str, the numpy scalars the library hands back, exceptions
    that derive from [Exception], [sys.exit] and the exit status of the
    interpreter. *)

From Stdlib Require Import String List Bool Arith ZArith Lia PrimFloat.
From ExtLib Require Import Structures.Monad Structures.MonadExc
  Structures.MonadState Structures.MonadTrans
  Data.Monads.EitherMonad Data.Monads.StateMonad.
Import ListNotations MonadNotation.

Set Warnings "-inexact-float".
Local Open Scope monad_scope.
Local Open Scope string_scope.

(** ** Python objects *)

Module Py.

(** An instance of a class deriving from [Exception]: the class name and
    what [str(e)] gives.  These are the exceptions the handler of
    [match_faces] names; [KeyboardInterrupt] and the like are outside
    the model. *)
Record exception : Type := Exception { exc_class : string; str : string }.

(** A computation that returns or raises. *)
Definition py : Type -> Type := sum exception.

(** The objects stored in the result dictionary.  [NpBool] is
    [numpy.bool_], the class of the result of comparing a numpy scalar;
    it is not the builtin [bool]. *)
Inductive value : Type :=
| Bool (b : bool)
| Float (x : float)
| Str (s : string)
| NpBool (b : bool).

(** A dict literal: keys in insertion order. *)
Definition dict : Type := list (string * value).

Definition keys (d : dict) : list string := map fst d.

Fixpoint get (d : dict) (k : string) : option value :=
  match d with
  | [] => None
  | (k', v) :: rest => if String.eqb k k' then Some v else get rest k
  end.

(** The name of the class of an object, as [type(v).__name__] has it
    (with the module for what is not builtin). *)
Definition class_of (v : value) : string :=
  match v with
  | Bool _ => "bool"
  | Float _ => "float"
  | Str _ => "str"
  | NpBool _ => "numpy.bool_"
  end.

(** [l[i]] for a non-negative index: [IndexError] when out of range. *)
Definition getitem {A : Type} (err : exception) (l : list A) (i : nat) : py A :=
  match nth_error l i with
  | Some x => ret x
  | None => raise err
  end.

Definition list_index_error : exception :=
  Exception "IndexError" "list index out of range".

Definition list_getitem {A : Type} : list A -> nat -> py A :=
  getitem list_index_error.

End Py.

(** ** numpy scalars

    [face_recognition.face_distance] returns a numpy array of float64
    (it is [numpy.linalg.norm] of the differences, along axis 1).  An
    element of it is a [numpy.float64]: binary64 arithmetic that yields
    [numpy.float64] again, and comparisons that yield [numpy.bool_].
    Line 52 brings the similarity back to a builtin float with
    [float(...)]; line 53 stores the comparison as it is. *)

Module Np.

Definition float64 : Type := float.

(** [1 - x] with a builtin int on the left: a [numpy.float64]. *)
Definition rsub (one x : float64) : float64 := PrimFloat.sub one x.

(** [x >= y]: the truth value held by the resulting [numpy.bool_]. *)
Definition ge (x y : float64) : bool := PrimFloat.leb y x.

(** [float(x)]: the builtin float of the same binary64 value. *)
Definition to_float (x : float64) : float := x.

Definition index_error : Py.exception :=
  Py.Exception "IndexError" "index 0 is out of bounds for axis 0 with size 0".

(** [a[0]] on a one-dimensional array. *)
Definition ndarray_getitem (a : list float64) (i : nat) : Py.py float64 :=
  Py.getitem index_error a i.

End Np.

(** ** json.dumps

    The encoder accepts dict, str, builtin bool and float (NaN included,
    [allow_nan] being on by default) and raises [TypeError] for an object
    of any other class.  The encoded line is kept as the document it
    denotes: quoting and number formatting are not modelled. *)

Module Json.

Inductive value : Type :=
| JBool (b : bool)
| JNumber (x : float)
| JString (s : string).

Definition object : Type := list (string * value).

Definition not_serializable : Py.exception :=
  Py.Exception "TypeError" "Object of type bool_ is not JSON serializable".

Definition dumps_value (v : Py.value) : Py.py value :=
  match v with
  | Py.Bool b => ret (JBool b)
  | Py.Float x => ret (JNumber x)
  | Py.Str s => ret (JString s)
  | Py.NpBool _ => raise not_serializable
  end.

Fixpoint dumps (d : Py.dict) : Py.py object :=
  match d with
  | [] => ret []
  | (k, v) :: rest =>
      j <- dumps_value v ;;
      js <- dumps rest ;;
      ret ((k, j) :: js)
  end.

End Json.

(** ** The face_recognition library, as the script uses it *)

Record FaceRecognition : Type := {
  image : Type;
  encoding : Type;
  load_image_file : string -> Py.py image;
  face_encodings : image -> Py.py (list encoding);
  face_distance : list encoding -> encoding -> Py.py (list Np.float64)
}.

(** ** match_faces *)

Definition failure (error : string) : Py.dict :=
  [("success", Py.Bool false); ("error", Py.Str error)].

Definition no_face_in_video : string := "No face detected in verification video".
Definition no_face_in_profile : string := "No face detected in profile photo".
Definition multiple_faces_in_video : string := "Multiple faces detected in video".

Definition threshold : float := 0.6%float.

Definition verdict (similarity : Np.float64) : Py.dict :=
  [("success", Py.Bool true);
   ("similarity", Py.Float (Np.to_float similarity));
   ("match", Py.NpBool (Np.ge similarity threshold))].

Section MatchFaces.

Variable face_recognition : FaceRecognition.

(** Lines 22 to 54: the three checks and the comparison, once both lists
    of encodings are there. *)
Definition compare_encodings
    (frame_encodings profile_encodings : list (encoding face_recognition))
    : Py.py Py.dict :=
  if (List.length frame_encodings =? 0)%nat then
    ret (failure no_face_in_video)
  else if (List.length profile_encodings =? 0)%nat then
    ret (failure no_face_in_profile)
  else if (1 <? List.length frame_encodings)%nat then
    ret (failure multiple_faces_in_video)
  else
    frame_encoding <- Py.list_getitem frame_encodings 0 ;;
    profile_encoding <- Py.list_getitem profile_encodings 0 ;;
    distances <- face_distance face_recognition [profile_encoding] frame_encoding ;;
    distance <- Np.ndarray_getitem distances 0 ;;
    let similarity := Np.rsub 1%float distance in
    ret (verdict similarity).

(** The body of the [try] block, lines 15 to 54. *)
Definition match_faces_try (frame_path profile_path : string) : Py.py Py.dict :=
  frame_image <- load_image_file face_recognition frame_path ;;
  profile_image <- load_image_file face_recognition profile_path ;;
  frame_encodings <- face_encodings face_recognition frame_image ;;
  profile_encodings <- face_encodings face_recognition profile_image ;;
  compare_encodings frame_encodings profile_encodings.

(** [try: ... except Exception as e: return {..., "error": str(e)}] *)
Definition match_faces (frame_path profile_path : string) : Py.py Py.dict :=
  catch (match_faces_try frame_path profile_path)
        (fun e => ret (failure (Py.str e))).

(** The library finds the faces [faces] in the image at [path]: the
    image loads and its encodings are returned. *)
Definition detects (path : string) (faces : list (encoding face_recognition)) : Prop :=
  exists img,
    load_image_file face_recognition path = inr img /\
    face_encodings face_recognition img = inr faces.

(** The exception [e] is raised inside the [try] block of
    [match_faces frame_path profile_path]: by one of the two loads, by
    one of the two encodings, by the distance computation, or by taking
    the first entry of the array of distances. *)
Inductive raises (frame_path profile_path : string) (e : Py.exception) : Prop :=
| raises_load_frame :
    load_image_file face_recognition frame_path = inl e ->
    raises frame_path profile_path e
| raises_load_profile (frame_image : image face_recognition) :
    load_image_file face_recognition frame_path = inr frame_image ->
    load_image_file face_recognition profile_path = inl e ->
    raises frame_path profile_path e
| raises_encode_frame (frame_image profile_image : image face_recognition) :
    load_image_file face_recognition frame_path = inr frame_image ->
    load_image_file face_recognition profile_path = inr profile_image ->
    face_encodings face_recognition frame_image = inl e ->
    raises frame_path profile_path e
| raises_encode_profile (frame_image profile_image : image face_recognition)
    (frame_encodings : list (encoding face_recognition)) :
    load_image_file face_recognition frame_path = inr frame_image ->
    load_image_file face_recognition profile_path = inr profile_image ->
    face_encodings face_recognition frame_image = inr frame_encodings ->
    face_encodings face_recognition profile_image = inl e ->
    raises frame_path profile_path e
| raises_distance (frame_encoding profile_encoding : encoding face_recognition)
    (others : list (encoding face_recognition)) :
    detects frame_path [frame_encoding] ->
    detects profile_path (profile_encoding :: others) ->
    face_distance face_recognition [profile_encoding] frame_encoding = inl e ->
    raises frame_path profile_path e
| raises_first_distance (frame_encoding profile_encoding : encoding face_recognition)
    (others : list (encoding face_recognition)) :
    detects frame_path [frame_encoding] ->
    detects profile_path (profile_encoding :: others) ->
    face_distance face_recognition [profile_encoding] frame_encoding = inr [] ->
    e = Np.index_error ->
    raises frame_path profile_path e.

End MatchFaces.

(** A similarity score in the range the script documents, 0 to 1. *)
Definition in_unit_interval (x : float) : bool :=
  PrimFloat.leb 0%float x && PrimFloat.leb x 1%float.

(** ** The command line entry point *)

(** What ends the interpreter early: an exception nobody caught (the
    traceback goes to standard error), or [sys.exit]. *)
Inductive interrupt : Type :=
| Uncaught (e : Py.exception)
| SystemExit (code : Z).

(** Standard output, one JSON document per printed line. *)
Definition stdout_lines : Type := list Json.object.

(** A script: it prints, and it returns or is interrupted.  What was
    printed before an interrupt stays printed. *)
Definition script : Type -> Type := eitherT interrupt (state stdout_lines).

Definition call {A : Type} (c : Py.py A) : script A :=
  match c with
  | inl e => raise (Uncaught e)
  | inr a => ret a
  end.

Definition print (line : Json.object) : script unit :=
  out <- get ;;
  put (out ++ [line])%list.

Definition sys_exit (code : Z) : script unit := raise (SystemExit code).

Definition usage : string :=
  "Usage: python3 face_matcher.py <frame_path> <profile_path>".

(** The line printed for a failure. *)
Definition failure_line (error : string) : Json.object :=
  [("success", Json.JBool false); ("error", Json.JString error)].

Record process : Type := { stdout : stdout_lines; exit_status : Z }.

Section Main.

Variable face_recognition : FaceRecognition.

(** The block under [if __name__ == "__main__"], lines 63 to 71. *)
Definition main (argv : list string) : script unit :=
  (if negb (List.length argv =? 3)%nat then
     line <- call (Json.dumps (failure usage)) ;;
     print line ;;
     sys_exit 1
   else ret tt) ;;
  frame_path <- call (Py.list_getitem argv 1) ;;
  profile_path <- call (Py.list_getitem argv 2) ;;
  result <- call (match_faces face_recognition frame_path profile_path) ;;
  line <- call (Json.dumps result) ;;
  print line.

(** Running the script: status 0 at the end of the module, the code
    given to [sys.exit], and 1 after an uncaught exception. *)
Definition run (argv : list string) : process :=
  let (outcome, out) := runState (unEitherT (main argv)) [] in
  {| stdout := out;
     exit_status :=
       match outcome with
       | inr _ => 0
       | inl (SystemExit code) => code
       | inl (Uncaught _) => 1
       end |}.

End Main.

(** ** A library to run the script on

    A stand-in for [face_recognition] on which everything computes.  An
    image is the list of the faces in it, an encoding a vector of floats,
    and the face distance is the one the library documents: the Euclidean
    norm of the difference, one entry per known encoding. *)

Module Fixture.

Definition vector : Type := list float.

Definition square_diff (acc : float) (ab : float * float) : float :=
  let d := PrimFloat.sub (fst ab) (snd ab) in
  PrimFloat.add acc (PrimFloat.mul d d).

Definition norm_diff (known probe : vector) : Np.float64 :=
  PrimFloat.sqrt (fold_left square_diff (combine known probe) 0%float).

Definition alice : vector := [0%float; 0%float].
Definition alice_later : vector := [0.25%float; 0%float].
Definition bob : vector := [1.5%float; 0%float].

Definition file_not_found (path : string) : Py.exception :=
  Py.Exception "FileNotFoundError"
    ("[Errno 2] No such file or directory: '" ++ path ++ "'").

Definition files (path : string) : Py.py (list vector) :=
  if path =? "alice_video.jpg" then ret [alice]
  else if path =? "alice_profile.jpg" then ret [alice_later]
  else if path =? "bob_profile.jpg" then ret [bob]
  else if path =? "group_profile.jpg" then ret [alice_later; bob]
  else if path =? "crowd_video.jpg" then ret [alice; bob]
  else if path =? "wall.jpg" then ret []
  else raise (file_not_found path).

Definition library : FaceRecognition :=
  {| image := list vector;
     encoding := vector;
     load_image_file := files;
     face_encodings := fun img => ret img;
     face_distance := fun known probe =>
       ret (map (fun k => norm_diff k probe) known) |}.

End Fixture.

(** A library whose every call raises. *)
Definition broken_library : FaceRecognition :=
  {| image := unit;
     encoding := unit;
     load_image_file := fun _ => raise (Py.Exception "RuntimeError" "no library");
     face_encodings := fun _ => raise (Py.Exception "RuntimeError" "no library");
     face_distance := fun _ _ => raise (Py.Exception "RuntimeError" "no library") |}.

(** ** Sample runs *)

Example match_alice :
  match_faces Fixture.library "alice_video.jpg" "alice_profile.jpg"
  = inr [("success", Py.Bool true); ("similarity", Py.Float 0.75%float);
         ("match", Py.NpBool true)].
Proof. vm_compute. reflexivity. Qed.

Example match_bob :
  match_faces Fixture.library "alice_video.jpg" "bob_profile.jpg"
  = inr [("success", Py.Bool true); ("similarity", Py.Float (-0.5)%float);
         ("match", Py.NpBool false)].
Proof. vm_compute. reflexivity. Qed.

Example match_missing :
  match_faces Fixture.library "alice_video.jpg" "nowhere.jpg"
  = inr (failure "[Errno 2] No such file or directory: 'nowhere.jpg'").
Proof. vm_compute. reflexivity. Qed.

Example run_alice :
  run Fixture.library ["face_matcher.py"; "alice_video.jpg"; "alice_profile.jpg"]
  = {| stdout := []; exit_status := 1 |}.
Proof. vm_compute. reflexivity. Qed.

Example run_wall :
  run Fixture.library ["face_matcher.py"; "wall.jpg"; "alice_profile.jpg"]
  = {| stdout := [[("success", Json.JBool false);
                   ("error", Json.JString no_face_in_video)]];
       exit_status := 0 |}.
Proof. vm_compute. reflexivity. Qed.

Example run_no_args :
  run Fixture.library ["face_matcher.py"]
  = {| stdout := [[("success", Json.JBool false);
                   ("error", Json.JString usage)]];
       exit_status := 1 |}.
Proof. vm_compute. reflexivity. Qed.

(** * Properties *)

(** ** Running the body of [match_faces] *)

Create HintDb face_matcher.

Ltac unfold_script :=
  unfold match_faces, match_faces_try, compare_encodings,
    Py.list_getitem, Np.ndarray_getitem, Py.getitem; cbn.

Ltac use_detects H :=
  let img := fresh "img" in
  let Hload := fresh "Hload" in
  let Henc := fresh "Henc" in
  destruct H as (img & Hload & Henc).

Ltac fixture_detects := eexists; split; reflexivity.

Section Body.

Variable lib : FaceRecognition.

(** Once both images are loaded and encoded, the body is the checks and
    the comparison on the two lists. *)
Lemma match_faces_try_detected frame_path profile_path frame_encodings profile_encodings :
  detects lib frame_path frame_encodings ->
  detects lib profile_path profile_encodings ->
  match_faces_try lib frame_path profile_path
  = compare_encodings lib frame_encodings profile_encodings.
Proof.
  intros Hf Hp. use_detects Hf. use_detects Hp.
  unfold match_faces_try. cbn.
  rewrite Hload, Hload0, Henc, Henc0. reflexivity.
Qed.

(** What the body returns, [match_faces] returns. *)
Lemma match_faces_returns frame_path profile_path d :
  match_faces_try lib frame_path profile_path = inr d ->
  match_faces lib frame_path profile_path = inr d.
Proof. intros H. unfold match_faces. rewrite H. reflexivity. Qed.

(** What the body raises, the handler turns into a failure. *)
Lemma match_faces_handles frame_path profile_path e :
  match_faces_try lib frame_path profile_path = inl e ->
  match_faces lib frame_path profile_path = inr (failure (Py.str e)).
Proof. intros H. unfold match_faces. rewrite H. reflexivity. Qed.

Lemma compare_no_frame_face profile_encodings :
  compare_encodings lib [] profile_encodings = inr (failure no_face_in_video).
Proof. reflexivity. Qed.

Lemma compare_no_profile_face frame_encodings :
  frame_encodings <> [] ->
  compare_encodings lib frame_encodings [] = inr (failure no_face_in_profile).
Proof. destruct frame_encodings; [congruence | reflexivity]. Qed.

Lemma compare_multiple_frame_faces frame_encodings profile_encodings :
  1 < List.length frame_encodings ->
  profile_encodings <> [] ->
  compare_encodings lib frame_encodings profile_encodings
  = inr (failure multiple_faces_in_video).
Proof.
  intros Hlen Hne.
  destruct frame_encodings as [|f1 [|f2 fs]]; cbn in Hlen; try lia.
  destruct profile_encodings; [congruence | reflexivity].
Qed.

(** One face in the frame, at least one in the profile: the distance to
    the first profile encoding decides. *)
Lemma compare_single frame_encoding profile_encoding others :
  compare_encodings lib [frame_encoding] (profile_encoding :: others)
  = match face_distance lib [profile_encoding] frame_encoding with
    | inl e => inl e
    | inr [] => inl Np.index_error
    | inr (distance :: _) => inr (verdict (Np.rsub 1%float distance))
    end.
Proof.
  unfold_script.
  destruct (face_distance lib [profile_encoding] frame_encoding) as [e|[|d ds]];
    reflexivity.
Qed.

End Body.

#[export] Hint Resolve match_faces_returns match_faces_handles : face_matcher.

(** ** The validation checks *)

(** C2: when the library finds no face in the frame image, [match_faces]
    returns exactly success false with the error "No face detected in
    verification video", whatever it finds in the profile image. *)
Theorem match_faces_no_frame_face
    (lib : FaceRecognition) (frame_path profile_path : string)
    (profile_encodings : list (encoding lib)) :
  detects lib frame_path [] ->
  detects lib profile_path profile_encodings ->
  match_faces lib frame_path profile_path
  = inr [("success", Py.Bool false);
         ("error", Py.Str "No face detected in verification video")].
Proof.
  intros Hf Hp. apply match_faces_returns.
  rewrite (match_faces_try_detected _ _ _ _ _ Hf Hp).
  apply compare_no_frame_face.
Qed.

Lemma match_faces_no_frame_face_witness :
  detects Fixture.library "wall.jpg" [] /\
  detects Fixture.library "group_profile.jpg" [Fixture.alice_later; Fixture.bob] /\
  match_faces Fixture.library "wall.jpg" "group_profile.jpg"
  = inr [("success", Py.Bool false);
         ("error", Py.Str "No face detected in verification video")].
Proof.
  split; [fixture_detects | split; [fixture_detects |]].
  apply (match_faces_no_frame_face Fixture.library "wall.jpg" "group_profile.jpg"
           [Fixture.alice_later; Fixture.bob]); fixture_detects.
Defined.

(** C3: when the frame image yields at least one encoding and the profile
    image yields none, [match_faces] returns success false with the error
    "No face detected in profile photo". *)
Theorem match_faces_no_profile_face
    (lib : FaceRecognition) (frame_path profile_path : string)
    (frame_encodings : list (encoding lib)) :
  detects lib frame_path frame_encodings ->
  frame_encodings <> [] ->
  detects lib profile_path [] ->
  match_faces lib frame_path profile_path
  = inr [("success", Py.Bool false);
         ("error", Py.Str "No face detected in profile photo")].
Proof.
  intros Hf Hne Hp. apply match_faces_returns.
  rewrite (match_faces_try_detected _ _ _ _ _ Hf Hp).
  now apply compare_no_profile_face.
Qed.

Lemma match_faces_no_profile_face_witness :
  detects Fixture.library "alice_video.jpg" [Fixture.alice] /\
  [Fixture.alice] <> [] /\
  detects Fixture.library "wall.jpg" [] /\
  match_faces Fixture.library "alice_video.jpg" "wall.jpg"
  = inr [("success", Py.Bool false);
         ("error", Py.Str "No face detected in profile photo")].
Proof.
  split; [fixture_detects | split; [discriminate | split; [fixture_detects |]]].
  apply (match_faces_no_profile_face Fixture.library "alice_video.jpg" "wall.jpg"
           [Fixture.alice]); [fixture_detects | discriminate | fixture_detects].
Defined.

(** C4, as stated, fails: two faces in the frame and none in the profile
    photo give the profile error, not the multiple-faces error. *)
Lemma multiple_frame_faces_not_always_reported :
  detects Fixture.library "crowd_video.jpg" [Fixture.alice; Fixture.bob] /\
  1 < List.length [Fixture.alice; Fixture.bob] /\
  match_faces Fixture.library "crowd_video.jpg" "wall.jpg"
  = inr (failure "No face detected in profile photo") /\
  match_faces Fixture.library "crowd_video.jpg" "wall.jpg"
  <> inr (failure "Multiple faces detected in video").
Proof.
  split; [fixture_detects | split; [cbn; lia | split; [reflexivity | discriminate]]].
Qed.

(** C4, amended: when the library finds more than one face in the frame
    image and at least one face in the profile image, [match_faces]
    returns success false with the error "Multiple faces detected in
    video". *)
Theorem match_faces_multiple_frame_faces
    (lib : FaceRecognition) (frame_path profile_path : string)
    (frame_encodings profile_encodings : list (encoding lib)) :
  detects lib frame_path frame_encodings ->
  1 < List.length frame_encodings ->
  detects lib profile_path profile_encodings ->
  profile_encodings <> [] ->
  match_faces lib frame_path profile_path
  = inr [("success", Py.Bool false);
         ("error", Py.Str "Multiple faces detected in video")].
Proof.
  intros Hf Hlen Hp Hne. apply match_faces_returns.
  rewrite (match_faces_try_detected _ _ _ _ _ Hf Hp).
  now apply compare_multiple_frame_faces.
Qed.

Lemma match_faces_multiple_frame_faces_witness :
  detects Fixture.library "crowd_video.jpg" [Fixture.alice; Fixture.bob] /\
  1 < List.length [Fixture.alice; Fixture.bob] /\
  detects Fixture.library "alice_profile.jpg" [Fixture.alice_later] /\
  [Fixture.alice_later] <> [] /\
  match_faces Fixture.library "crowd_video.jpg" "alice_profile.jpg"
  = inr [("success", Py.Bool false);
         ("error", Py.Str "Multiple faces detected in video")].
Proof.
  split; [fixture_detects |].
  split; [cbn; lia |].
  split; [fixture_detects |].
  split; [discriminate |].
  apply (match_faces_multiple_frame_faces Fixture.library
           "crowd_video.jpg" "alice_profile.jpg"
           [Fixture.alice; Fixture.bob] [Fixture.alice_later]);
    try fixture_detects; try discriminate; cbn; lia.
Defined.

(** C10: the checks are applied in a fixed order: no face in the frame,
    then no face in the profile, then more than one face in the frame.
    Whenever several hold, the error is that of the earliest; with more
    than one face in the frame and none in the profile, the error is "No
    face detected in profile photo". *)
Theorem match_faces_check_precedence
    (lib : FaceRecognition) (frame_path profile_path : string)
    (frame_encodings profile_encodings : list (encoding lib)) :
  detects lib frame_path frame_encodings ->
  detects lib profile_path profile_encodings ->
  (frame_encodings = [] ->
   match_faces lib frame_path profile_path
   = inr (failure "No face detected in verification video")) /\
  (frame_encodings <> [] -> profile_encodings = [] ->
   match_faces lib frame_path profile_path
   = inr (failure "No face detected in profile photo")) /\
  (1 < List.length frame_encodings -> profile_encodings = [] ->
   match_faces lib frame_path profile_path
   = inr (failure "No face detected in profile photo")) /\
  (frame_encodings <> [] -> profile_encodings <> [] ->
   1 < List.length frame_encodings ->
   match_faces lib frame_path profile_path
   = inr (failure "Multiple faces detected in video")).
Proof.
  intros Hf Hp.
  pose proof (match_faces_try_detected _ _ _ _ _ Hf Hp) as Htry.
  split; [| split; [| split]]; intros; subst;
    apply match_faces_returns; rewrite Htry.
  - apply compare_no_frame_face.
  - now apply compare_no_profile_face.
  - apply compare_no_profile_face.
    destruct frame_encodings; [cbn in *; lia | discriminate].
  - now apply compare_multiple_frame_faces.
Qed.

Lemma match_faces_check_precedence_witness :
  detects Fixture.library "crowd_video.jpg" [Fixture.alice; Fixture.bob] /\
  detects Fixture.library "wall.jpg" [] /\
  match_faces Fixture.library "crowd_video.jpg" "wall.jpg"
  = inr (failure "No face detected in profile photo").
Proof.
  split; [fixture_detects | split; [fixture_detects |]].
  refine (proj1 (proj2 (proj2
    (match_faces_check_precedence Fixture.library "crowd_video.jpg" "wall.jpg"
       [Fixture.alice; Fixture.bob] [] _ _))) _ _);
    try fixture_detects; cbn; lia.
Defined.

(** ** The comparison *)

Section Comparison.

Variable lib : FaceRecognition.

(** One face in the frame and at least one in the profile: the verdict
    comes from the distance between the frame encoding and the first
    profile encoding. *)
Lemma match_faces_compares_first frame_path profile_path
    frame_encoding profile_encoding others distance distances :
  detects lib frame_path [frame_encoding] ->
  detects lib profile_path (profile_encoding :: others) ->
  face_distance lib [profile_encoding] frame_encoding = inr (distance :: distances) ->
  match_faces lib frame_path profile_path
  = inr (verdict (Np.rsub 1%float distance)).
Proof.
  intros Hf Hp Hd. apply match_faces_returns.
  rewrite (match_faces_try_detected _ _ _ _ _ Hf Hp), compare_single, Hd.
  reflexivity.
Qed.

(** X3: the other faces of the profile photo play no part.  With one
    face in the frame, the result for a profile photo with several faces
    is the result for a profile photo with the first of them alone,
    whatever the distance computation does. *)
Lemma match_faces_ignores_other_profile_faces frame_path profile_path alone_path
    frame_encoding profile_encoding others :
  detects lib frame_path [frame_encoding] ->
  detects lib profile_path (profile_encoding :: others) ->
  detects lib alone_path [profile_encoding] ->
  match_faces lib frame_path profile_path = match_faces lib frame_path alone_path.
Proof.
  intros Hf Hp Ha. unfold match_faces.
  rewrite (match_faces_try_detected _ _ _ _ _ Hf Hp).
  rewrite (match_faces_try_detected _ _ _ _ _ Hf Ha).
  now rewrite !compare_single.
Qed.

End Comparison.

(** The fields of a verdict: success is [True], the similarity is a
    builtin float, and the match field holds the truth value of
    [similarity >= 0.6]. *)
Lemma verdict_fields (similarity : Np.float64) :
  Py.get (verdict similarity) "success" = Some (Py.Bool true) /\
  Py.get (verdict similarity) "similarity" = Some (Py.Float similarity) /\
  Py.get (verdict similarity) "match"
  = Some (Py.NpBool (PrimFloat.leb 0.6%float similarity)).
Proof. repeat split. Qed.

(** Exactly one face in each image: [match_faces] returns success true,
    the similarity 1 minus the face distance, and a match field with the
    truth value of [similarity >= 0.6].  Nothing bounds the similarity
    from below. *)
Lemma match_faces_one_face_each
    (lib : FaceRecognition) (frame_path profile_path : string)
    (frame_encoding profile_encoding : encoding lib)
    (distance : Np.float64) (distances : list Np.float64) :
  detects lib frame_path [frame_encoding] ->
  detects lib profile_path [profile_encoding] ->
  face_distance lib [profile_encoding] frame_encoding = inr (distance :: distances) ->
  match_faces lib frame_path profile_path
  = inr [("success", Py.Bool true);
         ("similarity", Py.Float (PrimFloat.sub 1%float distance));
         ("match", Py.NpBool (PrimFloat.leb 0.6%float (PrimFloat.sub 1%float distance)))].
Proof.
  intros Hf Hp Hd.
  now rewrite (match_faces_compares_first _ _ _ _ _ _ _ _ Hf Hp Hd).
Qed.

(** C1, where the code departs from it: one face in each image, the two
    encodings at distance 1.5, and the similarity is -0.5, outside the
    interval from 0 to 1 that the claim and the comment on line 47 give. *)
Theorem match_faces_similarity_below_zero :
  detects Fixture.library "alice_video.jpg" [Fixture.alice] /\
  detects Fixture.library "bob_profile.jpg" [Fixture.bob] /\
  face_distance Fixture.library [Fixture.bob] Fixture.alice = inr [1.5%float] /\
  match_faces Fixture.library "alice_video.jpg" "bob_profile.jpg"
  = inr [("success", Py.Bool true);
         ("similarity", Py.Float (-0.5)%float);
         ("match", Py.NpBool false)] /\
  in_unit_interval (-0.5)%float = false.
Proof.
  split; [fixture_detects |].
  split; [fixture_detects |].
  split; [vm_compute; reflexivity |].
  split; vm_compute; reflexivity.
Qed.

(** C9: several faces in the profile photo cause no error.  With exactly
    one encoding in the frame and two or more in the profile,
    [match_faces] returns success true, from the distance between the
    frame encoding and the first profile encoding only. *)
Theorem match_faces_several_profile_faces
    (lib : FaceRecognition) (frame_path profile_path : string)
    (frame_encoding first second : encoding lib) (others : list (encoding lib))
    (distance : Np.float64) (distances : list Np.float64) :
  detects lib frame_path [frame_encoding] ->
  detects lib profile_path (first :: second :: others) ->
  face_distance lib [first] frame_encoding = inr (distance :: distances) ->
  match_faces lib frame_path profile_path
  = inr [("success", Py.Bool true);
         ("similarity", Py.Float (PrimFloat.sub 1%float distance));
         ("match", Py.NpBool (PrimFloat.leb 0.6%float (PrimFloat.sub 1%float distance)))].
Proof.
  intros Hf Hp Hd.
  now rewrite (match_faces_compares_first _ _ _ _ _ _ _ _ Hf Hp Hd).
Qed.

Lemma match_faces_several_profile_faces_witness :
  detects Fixture.library "alice_video.jpg" [Fixture.alice] /\
  detects Fixture.library "group_profile.jpg" [Fixture.alice_later; Fixture.bob] /\
  face_distance Fixture.library [Fixture.alice_later] Fixture.alice
  = inr [0.25%float] /\
  match_faces Fixture.library "alice_video.jpg" "group_profile.jpg"
  = inr [("success", Py.Bool true);
         ("similarity", Py.Float (PrimFloat.sub 1%float 0.25%float));
         ("match", Py.NpBool (PrimFloat.leb 0.6%float (PrimFloat.sub 1%float 0.25%float)))].
Proof.
  split; [fixture_detects |].
  split; [fixture_detects |].
  split; [vm_compute; reflexivity |].
  apply (match_faces_several_profile_faces Fixture.library
           "alice_video.jpg" "group_profile.jpg"
           Fixture.alice Fixture.alice_later Fixture.bob [] 0.25%float []);
    [fixture_detects | fixture_detects | vm_compute; reflexivity].
Defined.

(** ** Exceptions *)

Section Exceptions.

Variable lib : FaceRecognition.

(** Each way of raising makes the body of the [try] block raise. *)
Lemma raises_try frame_path profile_path e :
  raises lib frame_path profile_path e ->
  match_faces_try lib frame_path profile_path = inl e.
Proof.
  intros [H | fi Hf H | fi pi Hf Hp H | fi pi fe Hf Hp Hfe H
          | fe pe others Hf Hp H | fe pe others Hf Hp H He].
  - unfold match_faces_try. cbn. now rewrite H.
  - unfold match_faces_try. cbn. now rewrite Hf, H.
  - unfold match_faces_try. cbn. now rewrite Hf, Hp, H.
  - unfold match_faces_try. cbn. now rewrite Hf, Hp, Hfe, H.
  - rewrite (match_faces_try_detected _ _ _ _ _ Hf Hp), compare_single.
    now rewrite H.
  - rewrite (match_faces_try_detected _ _ _ _ _ Hf Hp), compare_single.
    now rewrite H, He.
Qed.

(** The checks themselves raise nothing. *)
Lemma compare_encodings_raises frame_encodings profile_encodings e :
  compare_encodings lib frame_encodings profile_encodings = inl e ->
  exists frame_encoding profile_encoding others,
    frame_encodings = [frame_encoding] /\
    profile_encodings = profile_encoding :: others /\
    (face_distance lib [profile_encoding] frame_encoding = inl e \/
     face_distance lib [profile_encoding] frame_encoding = inr [] /\
     e = Np.index_error).
Proof.
  destruct frame_encodings as [|fe [|fe2 fes]]; [discriminate | |].
  - destruct profile_encodings as [|pe pes]; [discriminate |].
    rewrite compare_single. intros H.
    exists fe, pe, pes. split; [reflexivity | split; [reflexivity |]].
    destruct (face_distance lib [pe] fe) as [e'|[|d ds]].
    + left. congruence.
    + right. split; congruence.
    + discriminate.
  - destruct profile_encodings; discriminate.
Qed.

(** And the body raises in no other way. *)
Lemma try_raises frame_path profile_path e :
  match_faces_try lib frame_path profile_path = inl e ->
  raises lib frame_path profile_path e.
Proof.
  unfold match_faces_try. cbn.
  destruct (load_image_file lib frame_path) as [e1|fi] eqn:Hf.
  { intros [= ->]. now apply raises_load_frame. }
  destruct (load_image_file lib profile_path) as [e2|pi] eqn:Hp.
  { intros [= ->]. now apply raises_load_profile with fi. }
  destruct (face_encodings lib fi) as [e3|fe] eqn:Hfe.
  { intros [= ->]. now apply raises_encode_frame with fi pi. }
  destruct (face_encodings lib pi) as [e4|pe] eqn:Hpe.
  { intros [= ->]. now apply raises_encode_profile with fi pi fe. }
  intros H.
  destruct (compare_encodings_raises _ _ _ H)
    as (fe1 & pe1 & others & -> & -> & [Hd | [Hd ->]]).
  - apply raises_distance with fe1 pe1 others; trivial.
    + now exists fi.
    + now exists pi.
  - apply raises_first_distance with fe1 pe1 others; trivial.
    + now exists fi.
    + now exists pi.
Qed.

End Exceptions.

(** C8: when an exception is raised anywhere inside [match_faces] (loading
    an image, encoding, the distance computation), the returned object is
    success false with [str(e)], unmodified, as the error. *)
Theorem match_faces_reports_exception
    (lib : FaceRecognition) (frame_path profile_path : string) (e : Py.exception) :
  raises lib frame_path profile_path e ->
  match_faces lib frame_path profile_path
  = inr [("success", Py.Bool false); ("error", Py.Str (Py.str e))].
Proof.
  intros H. apply match_faces_handles. now apply raises_try.
Qed.

Lemma match_faces_reports_exception_witness :
  raises Fixture.library "alice_video.jpg" "nowhere.jpg"
    (Fixture.file_not_found "nowhere.jpg") /\
  match_faces Fixture.library "alice_video.jpg" "nowhere.jpg"
  = inr [("success", Py.Bool false);
         ("error", Py.Str "[Errno 2] No such file or directory: 'nowhere.jpg'")].
Proof.
  assert (H : raises Fixture.library "alice_video.jpg" "nowhere.jpg"
                (Fixture.file_not_found "nowhere.jpg")).
  { apply raises_load_profile with [Fixture.alice]; reflexivity. }
  split; [exact H |].
  exact (match_faces_reports_exception Fixture.library
           "alice_video.jpg" "nowhere.jpg" (Fixture.file_not_found "nowhere.jpg") H).
Defined.

(** ** The process *)

Section Process.

Variable lib : FaceRecognition.

(** A failure is always serializable. *)
Lemma dumps_failure error :
  Json.dumps (failure error) = inr (failure_line error).
Proof. reflexivity. Qed.

(** A verdict is not: its match field is a [numpy.bool_]. *)
Lemma dumps_verdict similarity :
  Json.dumps (verdict similarity) = inl Json.not_serializable.
Proof. reflexivity. Qed.

(** Any argument count but two: the usage line, status 1. *)
Lemma run_wrong_argument_count argv :
  List.length argv <> 3 ->
  run lib argv = {| stdout := [failure_line usage]; exit_status := 1 |}.
Proof.
  intros H. unfold run, main.
  destruct (Nat.eqb_spec (List.length argv) 3) as [|_]; [contradiction |].
  reflexivity.
Qed.

(** Two arguments and a failure: the failure is printed, status 0. *)
Lemma run_failure script_name frame_path profile_path error :
  match_faces lib frame_path profile_path = inr (failure error) ->
  run lib [script_name; frame_path; profile_path]
  = {| stdout := [failure_line error]; exit_status := 0 |}.
Proof.
  intros H. unfold run, main. cbn -[match_faces]. rewrite H. reflexivity.
Qed.

(** Two arguments and a verdict: [json.dumps] raises outside any
    handler, nothing is printed, status 1. *)
Lemma run_verdict script_name frame_path profile_path similarity :
  match_faces lib frame_path profile_path = inr (verdict similarity) ->
  run lib [script_name; frame_path; profile_path]
  = {| stdout := []; exit_status := 1 |}.
Proof.
  intros H. unfold run, main. cbn -[match_faces]. rewrite H. reflexivity.
Qed.

(** Every run of [match_faces] ends in one of two ways: a failure, or
    the verdict of a comparison that went through. *)
Lemma match_faces_cases frame_path profile_path :
  (exists error, match_faces lib frame_path profile_path = inr (failure error)) \/
  (exists frame_encoding profile_encoding others distance distances,
      detects lib frame_path [frame_encoding] /\
      detects lib profile_path (profile_encoding :: others) /\
      face_distance lib [profile_encoding] frame_encoding
      = inr (distance :: distances) /\
      match_faces lib frame_path profile_path
      = inr (verdict (Np.rsub 1%float distance))).
Proof.
  destruct (match_faces_try lib frame_path profile_path) as [e|d] eqn:Htry.
  { left. exists (Py.str e). auto with face_matcher. }
  revert Htry. unfold match_faces_try. cbn -[match_faces].
  destruct (load_image_file lib frame_path) as [|fi] eqn:Hf; [discriminate |].
  destruct (load_image_file lib profile_path) as [|pi] eqn:Hp; [discriminate |].
  destruct (face_encodings lib fi) as [|fe] eqn:Hfe; [discriminate |].
  destruct (face_encodings lib pi) as [|pe] eqn:Hpe; [discriminate |].
  assert (Hdf : detects lib frame_path fe) by now exists fi.
  assert (Hdp : detects lib profile_path pe) by now exists pi.
  intros Hcmp.
  assert (Hres : match_faces lib frame_path profile_path = inr d).
  { apply match_faces_returns.
    now rewrite (match_faces_try_detected _ _ _ _ _ Hdf Hdp). }
  destruct fe as [|fe1 [|fe2 fes]].
  - left. exists no_face_in_video. rewrite Hres. f_equal.
    cbn in Hcmp. congruence.
  - destruct pe as [|pe1 pes].
    + left. exists no_face_in_profile. rewrite Hres. f_equal.
      cbn in Hcmp. congruence.
    + rewrite compare_single in Hcmp.
      destruct (face_distance lib [pe1] fe1) as [|[|dist dists]] eqn:Hd;
        rewrite ?Hd in Hcmp; try discriminate.
      right. exists fe1, pe1, pes, dist, dists.
      repeat (split; [assumption || reflexivity |]).
      rewrite Hres. injection Hcmp as <-. reflexivity.
  - destruct pe as [|pe1 pes].
    + left. exists no_face_in_profile. rewrite Hres. f_equal.
      cbn in Hcmp. congruence.
    + left. exists multiple_faces_in_video. rewrite Hres. f_equal.
      cbn in Hcmp. congruence.
Qed.

End Process.

(** C6: [match_faces] is total.  Whatever the library does, raising
    included, it returns a result and lets no exception through; unless
    the comparison went through, the result is success false with an
    error string (the string of the exception when one was raised), and
    the process prints it and ends with status 0. *)
Theorem match_faces_total
    (lib : FaceRecognition) (frame_path profile_path : string) :
  exists result,
    match_faces lib frame_path profile_path = inr result /\
    (forall e, raises lib frame_path profile_path e ->
               result = [("success", Py.Bool false); ("error", Py.Str (Py.str e))]) /\
    ((exists error,
         result = [("success", Py.Bool false); ("error", Py.Str error)] /\
         forall script_name,
           run lib [script_name; frame_path; profile_path]
           = {| stdout := [[("success", Json.JBool false);
                            ("error", Json.JString error)]];
                exit_status := 0 |}) \/
     (exists frame_encoding profile_encoding others distance distances,
         detects lib frame_path [frame_encoding] /\
         detects lib profile_path (profile_encoding :: others) /\
         face_distance lib [profile_encoding] frame_encoding
         = inr (distance :: distances) /\
         result = verdict (Np.rsub 1%float distance))).
Proof.
  destruct (match_faces_cases lib frame_path profile_path)
    as [(error & H) | (fe & pe & others & d & ds & Hf & Hp & Hd & H)].
  - exists (failure error). split; [exact H |]. split.
    + intros e He.
      pose proof (match_faces_handles _ _ _ _ (raises_try _ _ _ _ He)) as H'.
      change (failure error = failure (Py.str e)). congruence.
    + left. exists error. split; [reflexivity |].
      intros script_name. now apply run_failure.
  - exists (verdict (Np.rsub 1%float d)). split; [exact H |]. split.
    + intros e He.
      pose proof (match_faces_handles _ _ _ _ (raises_try _ _ _ _ He)) as H'.
      rewrite H in H'. discriminate.
    + right. exists fe, pe, others, d, ds. auto.
Qed.

(** X1: the script ends with status 0 exactly when it was given two
    arguments and [match_faces] returned a failure for them. *)
Lemma run_exit_status (lib : FaceRecognition) (argv : list string) :
  exit_status (run lib argv) = 0%Z <->
  exists script_name frame_path profile_path error,
    argv = [script_name; frame_path; profile_path] /\
    match_faces lib frame_path profile_path = inr (failure error).
Proof.
  split.
  - intros H.
    destruct (Nat.eq_dec (List.length argv) 3) as [Hlen | Hlen].
    + destruct argv as [|s [|f [|p [|]]]]; try discriminate.
      exists s, f, p.
      destruct (match_faces_cases lib f p)
        as [(error & Hm) | (fe & pe & others & d & ds & _ & _ & _ & Hm)].
      * now exists error.
      * rewrite (run_verdict _ _ _ _ _ Hm) in H. discriminate.
    + rewrite (run_wrong_argument_count _ _ Hlen) in H. discriminate.
  - intros (s & f & p & error & -> & Hm).
    now rewrite (run_failure _ _ _ _ _ Hm).
Qed.

(** C5, where the code departs from it: two arguments, one face in each
    image; [match_faces] returns a verdict, [json.dumps] raises
    [TypeError] on its match field outside any handler, nothing is
    printed and the status is 1, not 0. *)
Theorem run_verdict_exits_with_status_1 :
  List.length ["face_matcher.py"; "alice_video.jpg"; "alice_profile.jpg"] = 3 /\
  match_faces Fixture.library "alice_video.jpg" "alice_profile.jpg"
  = inr [("success", Py.Bool true);
         ("similarity", Py.Float 0.75%float);
         ("match", Py.NpBool true)] /\
  Json.dumps [("success", Py.Bool true);
              ("similarity", Py.Float 0.75%float);
              ("match", Py.NpBool true)]
  = inl (Py.Exception "TypeError" "Object of type bool_ is not JSON serializable") /\
  run Fixture.library ["face_matcher.py"; "alice_video.jpg"; "alice_profile.jpg"]
  = {| stdout := []; exit_status := 1 |}.
Proof.
  split; [reflexivity |].
  split; [vm_compute; reflexivity |].
  split; vm_compute; reflexivity.
Qed.

(** ** The shape of the result *)

(** The fields of every result: success, similarity and match, or success
    and error.  The match field holds a [numpy.bool_]. *)
Lemma match_faces_shape (lib : FaceRecognition) (frame_path profile_path : string) :
  exists result,
    match_faces lib frame_path profile_path = inr result /\
    ((Py.keys result = ["success"; "similarity"; "match"] /\
      Py.get result "success" = Some (Py.Bool true) /\
      (exists x, Py.get result "similarity" = Some (Py.Float x)) /\
      (exists b, Py.get result "match" = Some (Py.NpBool b))) \/
     (Py.keys result = ["success"; "error"] /\
      Py.get result "success" = Some (Py.Bool false) /\
      (exists s, Py.get result "error" = Some (Py.Str s)))).
Proof.
  destruct (match_faces_cases lib frame_path profile_path)
    as [(error & H) | (fe & pe & others & d & ds & _ & _ & _ & H)];
    eexists; (split; [exact H |]).
  - right. cbn. eauto.
  - left. cbn. eauto 6.
Qed.

(** C7, where the code departs from it: on success the match field is a
    [numpy.bool_], not a builtin bool. *)
Theorem match_field_is_numpy_bool :
  exists result v,
    match_faces Fixture.library "alice_video.jpg" "alice_profile.jpg" = inr result /\
    Py.get result "success" = Some (Py.Bool true) /\
    Py.get result "match" = Some v /\
    Py.class_of v = "numpy.bool_" /\
    Py.class_of v <> "bool".
Proof.
  exists (verdict 0.75%float), (Py.NpBool true).
  split; [vm_compute; reflexivity |].
  split; [reflexivity |].
  split; [reflexivity |].
  split; [reflexivity | discriminate].
Qed.

(** ** Further properties of the entry point and of the order of evaluation *)

Lemma match_faces_ignores_other_profile_faces_witness :
  detects Fixture.library "alice_video.jpg" [Fixture.alice] /\
  detects Fixture.library "group_profile.jpg" [Fixture.alice_later; Fixture.bob] /\
  detects Fixture.library "alice_profile.jpg" [Fixture.alice_later] /\
  match_faces Fixture.library "alice_video.jpg" "group_profile.jpg"
  = match_faces Fixture.library "alice_video.jpg" "alice_profile.jpg".
Proof.
  split; [fixture_detects |].
  split; [fixture_detects |].
  split; [fixture_detects |].
  apply (match_faces_ignores_other_profile_faces Fixture.library
           "alice_video.jpg" "group_profile.jpg" "alice_profile.jpg"
           Fixture.alice Fixture.alice_later [Fixture.bob]);
    fixture_detects.
Defined.

(** X2: with any argument count but two the script prints the usage
    failure and exits with status 1, and the library is not called: the
    outcome is the same for every library. *)
Theorem wrong_argument_count_needs_no_library
    (lib lib' : FaceRecognition) (argv : list string) :
  List.length argv <> 3 ->
  run lib argv
  = {| stdout := [[("success", Json.JBool false);
                   ("error", Json.JString
                      "Usage: python3 face_matcher.py <frame_path> <profile_path>")]];
       exit_status := 1 |} /\
  run lib argv = run lib' argv.
Proof.
  intros H. rewrite !(run_wrong_argument_count _ _ H). split; reflexivity.
Qed.

Lemma wrong_argument_count_needs_no_library_witness :
  List.length ["face_matcher.py"; "alice_video.jpg"] <> 3 /\
  run Fixture.library ["face_matcher.py"; "alice_video.jpg"]
  = {| stdout := [[("success", Json.JBool false);
                   ("error", Json.JString
                      "Usage: python3 face_matcher.py <frame_path> <profile_path>")]];
       exit_status := 1 |} /\
  run Fixture.library ["face_matcher.py"; "alice_video.jpg"]
  = run broken_library ["face_matcher.py"; "alice_video.jpg"].
Proof.
  split; [discriminate |].
  apply (wrong_argument_count_needs_no_library Fixture.library broken_library
           ["face_matcher.py"; "alice_video.jpg"]).
  discriminate.
Defined.

(** X4: the checks come after both images are loaded and encoded.  When
    loading or encoding the profile photo raises, the result is the
    failure of that exception whatever the frame shows, a frame without
    any face included. *)
Theorem profile_exception_precedes_checks
    (lib : FaceRecognition) (frame_path profile_path : string)
    (frame_encodings : list (encoding lib)) (e : Py.exception) :
  detects lib frame_path frame_encodings ->
  (load_image_file lib profile_path = inl e \/
   exists profile_image,
     load_image_file lib profile_path = inr profile_image /\
     face_encodings lib profile_image = inl e) ->
  match_faces lib frame_path profile_path
  = inr [("success", Py.Bool false); ("error", Py.Str (Py.str e))].
Proof.
  intros (fi & Hf & Hfe) [Hp | (pi & Hp & Hpe)];
    apply match_faces_handles, raises_try.
  - now apply raises_load_profile with fi.
  - now apply raises_encode_profile with fi pi frame_encodings.
Qed.

Lemma profile_exception_precedes_checks_witness :
  detects Fixture.library "wall.jpg" [] /\
  load_image_file Fixture.library "nowhere.jpg"
  = inl (Fixture.file_not_found "nowhere.jpg") /\
  match_faces Fixture.library "wall.jpg" "nowhere.jpg"
  = inr [("success", Py.Bool false);
         ("error", Py.Str "[Errno 2] No such file or directory: 'nowhere.jpg'")].
Proof.
  split; [fixture_detects |].
  split; [reflexivity |].
  apply (profile_exception_precedes_checks Fixture.library "wall.jpg" "nowhere.jpg"
           [] (Fixture.file_not_found "nowhere.jpg"));
    [fixture_detects | left; reflexivity].
Defined.

(** X5: whatever the arguments and the library, the script ends with
    status 0 or 1 and prints at most one line, and a line it prints is a
    failure: success false with an error string. *)
Theorem run_prints_at_most_one_failure
    (lib : FaceRecognition) (argv : list string) :
  (exit_status (run lib argv) = 0%Z \/ exit_status (run lib argv) = 1%Z) /\
  (stdout (run lib argv) = [] \/
   exists error,
     stdout (run lib argv)
     = [[("success", Json.JBool false); ("error", Json.JString error)]]).
Proof.
  destruct (Nat.eq_dec (List.length argv) 3) as [Hlen | Hlen].
  - destruct argv as [|s [|f [|p [|]]]]; try discriminate.
    destruct (match_faces_cases lib f p)
      as [(error & Hm) | (fe & pe & others & d & ds & _ & _ & _ & Hm)].
    + rewrite (run_failure _ _ _ _ _ Hm). cbn. split; [now left |].
      right. now exists error.
    + rewrite (run_verdict _ _ _ _ _ Hm). cbn. split; [now right | now left].
  - rewrite (run_wrong_argument_count _ _ Hlen). cbn. split; [now right |].
    right. now exists usage.
Qed.

(** X6: a success is only ever returned for a frame with exactly one face
    and a profile photo with at least one, and it is then the verdict for
    the distance between the frame encoding and the first profile
    encoding. *)
Theorem success_needs_single_frame_face
    (lib : FaceRecognition) (frame_path profile_path : string) (result : Py.dict) :
  match_faces lib frame_path profile_path = inr result ->
  Py.get result "success" = Some (Py.Bool true) ->
  exists frame_encoding profile_encoding others distance distances,
    detects lib frame_path [frame_encoding] /\
    detects lib profile_path (profile_encoding :: others) /\
    face_distance lib [profile_encoding] frame_encoding
    = inr (distance :: distances) /\
    result
    = [("success", Py.Bool true);
       ("similarity", Py.Float (PrimFloat.sub 1%float distance));
       ("match", Py.NpBool (PrimFloat.leb 0.6%float (PrimFloat.sub 1%float distance)))].
Proof.
  intros Hres Hsuccess.
  destruct (match_faces_cases lib frame_path profile_path)
    as [(error & Hm) | (fe & pe & others & d & ds & Hf & Hp & Hd & Hm)].
  - rewrite Hm in Hres. injection Hres as <-. discriminate.
  - rewrite Hm in Hres. injection Hres as <-.
    exists fe, pe, others, d, ds. auto.
Qed.

Lemma success_needs_single_frame_face_witness :
  match_faces Fixture.library "alice_video.jpg" "alice_profile.jpg"
  = inr (verdict 0.75%float) /\
  Py.get (verdict 0.75%float) "success" = Some (Py.Bool true) /\
  exists frame_encoding profile_encoding others distance distances,
    detects Fixture.library "alice_video.jpg" [frame_encoding] /\
    detects Fixture.library "alice_profile.jpg" (profile_encoding :: others) /\
    face_distance Fixture.library [profile_encoding] frame_encoding
    = inr (distance :: distances) /\
    verdict 0.75%float
    = [("success", Py.Bool true);
       ("similarity", Py.Float (PrimFloat.sub 1%float distance));
       ("match", Py.NpBool (PrimFloat.leb 0.6%float (PrimFloat.sub 1%float distance)))].
Proof.
  split; [vm_compute; reflexivity |].
  split; [reflexivity |].
  apply (success_needs_single_frame_face Fixture.library
           "alice_video.jpg" "alice_profile.jpg" (verdict 0.75%float));
    [vm_compute; reflexivity | reflexivity].
Defined.
